(** * SkipRenderOnClient: a shallow embedding of the hydration-skip component

    The component under study is [SkipRenderOnClient] together with its
    helper hook [useIsFirstRender].  A render is a JavaScript function call
    that reads the global object, the hook cells of its instance and the
    document, may write to the document, and returns a React node.  It is
    embedded as a function in a small monad threading the mutable state, an
    outcome (returned value or thrown error) and the list of observable
    events of the call. *)

From Stdlib Require Import String ZArith List Bool.
From stdpp Require Import gmap strings list fin_maps.
Import ListNotations.

Local Open Scope string_scope.

(** ** Values *)

(** [React.ReactNode], as far as the component builds and returns it:
    booleans and [null] render nothing, text renders itself, an element has
    a tag, an [id] attribute and a child. *)
Inductive ReactNode : Type :=
| RBool (b : bool)
| RNull
| RText (s : string)
| RElement (tag : string) (id : string) (child : ReactNode).

(** The browser-only global [window]: what a predicate such as
    [() => window.innerWidth <= 500] reads. *)
Record Window : Type := { innerWidth : Z; innerHeight : Z }.

(** The global object of the execution context; [window] is [undefined]
    (here [None]) on the server. *)
Record GlobalThis : Type := { window : option Window }.

Definition server : GlobalThis := {| window := None |}.
Definition client (w : Window) : GlobalThis := {| window := Some w |}.

(** Props of the component.  [shouldRenderOnClient] has type [() => boolean]
    and reads the ambient [window]. *)
Record Props : Type := {
  children : ReactNode;
  shouldRenderOnClient : Window -> bool
}.

Inductive JsError : Type :=
| ReferenceError (name : string)
| TypeError (msg : string).

(** The value of [document.getElementById]: an element handle or [null]. *)
Inductive HTMLElement : Type := ElementWithId (id : string).

(** ** State and events *)

(** The mutable state a render can touch: the cell of [React.useRef] in the
    instance ([None] until the first render creates it), the identifier
    [React.useId] hands out for the instance, and the document, kept as the
    [innerHTML] of each element that carries an [id]. *)
Record State : Type := {
  isFirst_current : option bool;
  instanceId : string;
  document : gmap string string
}.

Inductive Event : Type :=
| EvInvoke (result : option bool)
| EvGetElementById (id : string)
| EvSetInnerHTML (id : string) (html : string)
| EvCommit (out : ReactNode).

Inductive Outcome (A : Type) : Type :=
| Returned (a : A)
| Thrown (e : JsError).
Arguments Returned {A} a.
Arguments Thrown {A} e.

Record Run (A : Type) : Type := MkRun {
  outcome : Outcome A;
  final : State;
  events : list Event
}.
Arguments MkRun {A} outcome final events.
Arguments outcome {A} r.
Arguments final {A} r.
Arguments events {A} r.

(** ** The monad of JavaScript calls *)

Definition M (A : Type) : Type := State -> Run A.

Definition ret {A : Type} (a : A) : M A :=
  fun s => MkRun (Returned a) s [].

Definition bind {A B : Type} (m : M A) (k : A -> M B) : M B :=
  fun s =>
    let r := m s in
    match outcome r with
    | Returned a =>
        let r' := k a (final r) in
        MkRun (outcome r') (final r') (events r ++ events r')
    | Thrown e => MkRun (Thrown e) (final r) (events r)
    end.

Definition throw {A : Type} (e : JsError) : M A :=
  fun s => MkRun (Thrown e) s [].

Definition emit (ev : Event) : M unit :=
  fun s => MkRun (Returned tt) s [ev].

Definition get : M State :=
  fun s => MkRun (Returned s) s [].

Definition put (s' : State) : M unit :=
  fun _ => MkRun (Returned tt) s' [].

Notation "'do' x <- m ; k" := (bind m (fun x => k))
  (at level 10, x name, m at level 100, k at level 200).
Notation "'exec' m ; k" := (bind m (fun _ => k))
  (at level 10, m at level 100, k at level 200).

(** ** Primitives of the host: React hooks, globals and the DOM *)

(** [React.useId()]: the identifier of the instance, the same on every
    render of it. *)
Definition useId : M string :=
  do s <- get; ret (instanceId s).

(** [React.useRef(init)]: the first call on an instance creates the cell
    holding [init]; later calls hand back the same cell. *)
Definition useRef (init : bool) : M unit :=
  do s <- get;
  match isFirst_current s with
  | None => put {| isFirst_current := Some init;
                   instanceId := instanceId s;
                   document := document s |}
  | Some _ => ret tt
  end.

(** Reading and writing [isFirst.current]. *)
Definition get_current : M bool :=
  do s <- get;
  match isFirst_current s with
  | Some b => ret b
  | None => throw (TypeError "isFirst is undefined")
  end.

Definition set_current (b : bool) : M unit :=
  do s <- get;
  put {| isFirst_current := Some b;
         instanceId := instanceId s;
         document := document s |}.

(** [typeof window]. *)
Definition typeof_window (g : GlobalThis) : string :=
  match window g with
  | Some _ => "object"
  | None => "undefined"
  end.

(** Calling the predicate.  It reads [window], so where [window] is not
    defined the call throws. *)
Definition call_predicate (g : GlobalThis) (p : Window -> bool) : M bool :=
  match window g with
  | Some w => exec emit (EvInvoke (Some (p w))); ret (p w)
  | None => exec emit (EvInvoke None); throw (ReferenceError "window")
  end.

(** [document.getElementById(id)]; [document] is a browser global too. *)
Definition getElementById (g : GlobalThis) (id : string)
  : M (option HTMLElement) :=
  match window g with
  | Some _ =>
      exec emit (EvGetElementById id);
      do s <- get;
      ret (match document s !! id with
           | Some _ => Some (ElementWithId id)
           | None => None
           end)
  | None => throw (ReferenceError "document")
  end.

(** [el.innerHTML = html]; on [null] the assignment throws. *)
Definition set_innerHTML (el : option HTMLElement) (html : string) : M unit :=
  match el with
  | Some (ElementWithId i) =>
      exec emit (EvSetInnerHTML i html);
      do s <- get;
      put {| isFirst_current := isFirst_current s;
             instanceId := instanceId s;
             document := <[i := html]> (document s) |}
  | None => throw (TypeError "cannot set properties of null")
  end.

Definition is_null (el : option HTMLElement) : bool :=
  match el with
  | Some _ => false
  | None => true
  end.

(** ** The source *)

(** [useIsFirstRender]: [isFirst = React.useRef(true)], then the flag is
    read, and on the first render flipped. *)
Definition useIsFirstRender : M bool :=
  exec useRef true;
  do cur <- get_current;
  if cur then
    exec set_current false;
    ret true
  else
    ret false.

(** The body of the conditional of [SkipRenderOnClient]: look the container
    up and empty it when it is there. *)
Definition clearContainer (g : GlobalThis) (id : string) : M unit :=
  do el <- getElementById g id;
  if negb (is_null el) then set_innerHTML el "" else ret tt.

(** [SkipRenderOnClient].  The condition
    [isClient && isFirstRender && shouldRenderOnClient() === false]
    evaluates left to right and stops at the first false operand. *)
Definition SkipRenderOnClient (g : GlobalThis) (props : Props) : M ReactNode :=
  do id <- useId;
  let isClient := negb (String.eqb (typeof_window g) "undefined") in
  do isFirstRender <- useIsFirstRender;
  do skip <- (if isClient && isFirstRender then
                do b <- call_predicate g (shouldRenderOnClient props);
                ret (Bool.eqb b false)
              else ret false);
  exec (if skip : bool then clearContainer g id else ret tt);
  do shouldRender <- (if isClient
                      then call_predicate g (shouldRenderOnClient props)
                      else ret true);
  ret (RElement "div" id
         (if shouldRender : bool then children props else RBool false)).

(** ** The host's render cycle *)

(** One render pass of the framework: the component function is called and
    the node it returns is then committed. *)
Definition renderPass (g : GlobalThis) (props : Props) : M ReactNode :=
  do out <- SkipRenderOnClient g props;
  exec emit (EvCommit out);
  ret out.

(** A freshly created instance: no hook cell yet. *)
Definition mount (id : string) (dom : gmap string string) : State :=
  {| isFirst_current := None; instanceId := id; document := dom |}.

(** One render request: the context it runs in and the props it gets. *)
Record Render : Type := { env : GlobalThis; props : Props }.

(** The life of an instance: its renders one after the other, each from the
    state the previous one left.  No render throws ([render_total] below),
    so no case is made for a life cut short by an error. *)
Fixpoint lifetime (rs : list Render) (s : State) : list (Run ReactNode) :=
  match rs with
  | [] => []
  | r :: rs' =>
      let run := renderPass (env r) (props r) s in
      run :: lifetime rs' (final run)
  end.

(** The state an instance is in after the renders [rs]. *)
Fixpoint state_after (rs : list Render) (s : State) : State :=
  match rs with
  | [] => s
  | r :: rs' => state_after rs' (final (renderPass (env r) (props r) s))
  end.

(** What [n] successive calls of the hook answer, and the state they
    leave. *)
Fixpoint useIsFirstRender_calls (n : nat) (s : State)
  : list (Outcome bool) * State :=
  match n with
  | O => ([], s)
  | S n' =>
      let r := useIsFirstRender s in
      let rest := useIsFirstRender_calls n' (final r) in
      (outcome r :: fst rest, snd rest)
  end.

(** ** Observations on event lists *)

Definition is_clear (ev : Event) : bool :=
  match ev with
  | EvSetInnerHTML _ _ => true
  | _ => false
  end.

Definition is_dom_access (ev : Event) : bool :=
  match ev with
  | EvSetInnerHTML _ _ | EvGetElementById _ => true
  | _ => false
  end.

Definition is_invoke (ev : Event) : bool :=
  match ev with
  | EvInvoke _ => true
  | _ => false
  end.

Definition is_commit (ev : Event) : bool :=
  match ev with
  | EvCommit _ => true
  | _ => false
  end.

Definition clears (evs : list Event) : nat :=
  length (List.filter is_clear evs).

(** The events before, and after, the first commit. *)
Fixpoint before_commit (evs : list Event) : list Event :=
  match evs with
  | [] => []
  | ev :: evs' => if is_commit ev then [] else ev :: before_commit evs'
  end.

Fixpoint after_commit (evs : list Event) : list Event :=
  match evs with
  | [] => []
  | ev :: evs' => if is_commit ev then evs' else after_commit evs'
  end.

(** The child of the container a render returned. *)
Definition content (out : Outcome ReactNode) : option ReactNode :=
  match out with
  | Returned (RElement _ _ c) => Some c
  | _ => None
  end.

(** What the imperative clearing does to a document: the container, when
    it is there, ends up with no content. *)
Definition emptied (id : string) (dom : gmap string string)
  : gmap string string :=
  match dom !! id with
  | Some _ => <[id := ""]> dom
  | None => dom
  end.

(** The node the component returns: the container around [c]. *)
Definition container (id : string) (c : ReactNode) : ReactNode :=
  RElement "div" id c.

(** The state of an instance whose flag has been flipped. *)
Definition flipped (s : State) : State :=
  {| isFirst_current := Some false;
     instanceId := instanceId s;
     document := document s |}.

Definition is_first (s : State) : bool :=
  match isFirst_current s with
  | Some false => false
  | _ => true
  end.

(** ** Sample inputs and derived observations *)

Definition sample_window : Window :=
  {| innerWidth := 1280; innerHeight := 720 |}.

(** Props whose predicate answers [b] whatever the viewport. *)
Definition sample_props (b : bool) : Props :=
  {| children := RText "mobile"; shouldRenderOnClient := fun _ => b |}.

(** A document as the server markup leaves it: the container holds the
    children. *)
Definition sample_dom : gmap string string := {[ ":r0:" := "mobile" ]}.

(** A document in which the container is not to be found. *)
Definition empty_dom : gmap string string := ∅.

(** Whether the children are shown in context [g]. *)
Definition shown (g : GlobalThis) (pr : Props) : bool :=
  match window g with
  | Some w => shouldRenderOnClient pr w
  | None => true
  end.

(** Whether the render in context [g] from state [s] empties the
    container. *)
Definition clearing (g : GlobalThis) (pr : Props) (s : State) : bool :=
  match window g with
  | Some w =>
      is_first s && negb (shouldRenderOnClient pr w) &&
      bool_decide (is_Some (document s !! instanceId s))
  | None => false
  end.

(** Nothing is cleared before the commit of the render pass. *)
Definition clears_only_after_commit (evs : list Event) : Prop :=
  clears (before_commit evs) = 0.

(** ** Closed forms of the calls *)

Section Calls.

Variables (w : Window) (pr : Props).

Lemma useIsFirstRender_run (s : State) :
  useIsFirstRender s = MkRun (Returned (is_first s)) (flipped s) [].
Proof.
  destruct s as [[[|]|] i d]; reflexivity.
Qed.

Lemma clearContainer_run (id : string) (s : State) :
  clearContainer (client w) id s =
  MkRun (Returned tt)
    {| isFirst_current := isFirst_current s;
       instanceId := instanceId s;
       document := emptied id (document s) |}
    (EvGetElementById id ::
     match document s !! id with
     | Some _ => [EvSetInnerHTML id ""]
     | None => []
     end).
Proof.
  destruct s as [c i d].
  unfold clearContainer, getElementById, emptied, bind, emit, get, ret; simpl.
  destruct (d !! id); reflexivity.
Qed.

Lemma render_server (s : State) :
  SkipRenderOnClient server pr s =
  MkRun (Returned (container (instanceId s) (children pr))) (flipped s) [].
Proof.
  unfold SkipRenderOnClient, bind.
  destruct s as [[[|]|] i d]; reflexivity.
Qed.

Lemma render_client_steady (s : State) :
  is_first s = false ->
  SkipRenderOnClient (client w) pr s =
  MkRun (Returned (container (instanceId s)
                     (if shouldRenderOnClient pr w
                      then children pr else RBool false)))
    (flipped s) [EvInvoke (Some (shouldRenderOnClient pr w))].
Proof.
  destruct s as [[[|]|] i d]; try discriminate; intros _.
  unfold SkipRenderOnClient, bind; simpl.
  destruct (shouldRenderOnClient pr w); reflexivity.
Qed.

Lemma render_client_first (s : State) :
  is_first s = true ->
  SkipRenderOnClient (client w) pr s =
  if shouldRenderOnClient pr w then
    MkRun (Returned (container (instanceId s) (children pr)))
      (flipped s) [EvInvoke (Some true); EvInvoke (Some true)]
  else
    MkRun (Returned (container (instanceId s) (RBool false)))
      {| isFirst_current := Some false;
         instanceId := instanceId s;
         document := emptied (instanceId s) (document s) |}
      (EvInvoke (Some false) :: EvGetElementById (instanceId s) ::
       match document s !! instanceId s with
       | Some _ => [EvSetInnerHTML (instanceId s) ""]
       | None => []
       end ++ [EvInvoke (Some false)]).
Proof.
  destruct s as [c i d]; intros Hf.
  assert (Hc : c = None \/ c = Some true)
    by (destruct c as [[|]|]; auto; discriminate).
  destruct (shouldRenderOnClient pr w) eqn:Hp;
    unfold SkipRenderOnClient, bind;
    destruct Hc as [-> | ->]; cbn -[clearContainer emptied lookup];
    rewrite ?Hp; cbn -[clearContainer emptied lookup];
    rewrite ?clearContainer_run; cbn -[emptied lookup];
    rewrite ?Hp; cbn -[emptied lookup];
    try reflexivity.
  all: destruct (d !! i); reflexivity.
Qed.

End Calls.

(** ** Facts shared by the properties below *)

Lemma emptied_idemp (id : string) (dom : gmap string string) :
  emptied id (emptied id dom) = emptied id dom.
Proof.
  unfold emptied. destruct (dom !! id) eqn:E.
  - rewrite lookup_insert_eq. apply insert_insert_eq.
  - rewrite E. reflexivity.
Qed.

Lemma emptied_lookup (id : string) (dom : gmap string string) :
  emptied id dom !! id = (fun _ => "") <$> (dom !! id).
Proof.
  unfold emptied. destruct (dom !! id) eqn:E; simpl.
  - apply lookup_insert_eq.
  - exact E.
Qed.

Lemma flipped_steady (s : State) : is_first s = false -> flipped s = s.
Proof. destruct s as [[[|]|] i d]; try discriminate; reflexivity. Qed.

Lemma renderPass_run (g : GlobalThis) (pr : Props) (s s' : State)
      (out : ReactNode) (evs : list Event) :
  SkipRenderOnClient g pr s = MkRun (Returned out) s' evs ->
  renderPass g pr s = MkRun (Returned out) s' (evs ++ [EvCommit out]).
Proof.
  intros H. unfold renderPass, bind. rewrite H. reflexivity.
Qed.

(** A render always returns the container, never throws, and leaves the
    flag flipped. *)
Lemma render_total (g : GlobalThis) (pr : Props) (s : State) :
  exists evs dom',
    SkipRenderOnClient g pr s =
    MkRun (Returned (container (instanceId s)
                       (if shown g pr then children pr else RBool false)))
      {| isFirst_current := Some false;
         instanceId := instanceId s;
         document := dom' |}
      evs
    /\ clears evs = (if clearing g pr s then 1 else 0)
    /\ List.filter is_commit evs = [].
Proof.
  destruct g as [[w|]]; unfold shown, clearing; simpl.
  - destruct (is_first s) eqn:Hf.
    + change {| window := Some w |} with (client w).
      rewrite (render_client_first w pr s Hf).
      destruct (shouldRenderOnClient pr w); simpl.
      * do 2 eexists. split; [reflexivity | split; reflexivity].
      * do 2 eexists. split; [reflexivity |].
        destruct (document s !! instanceId s) eqn:E; simpl;
          split; reflexivity.
    + change {| window := Some w |} with (client w).
      rewrite (render_client_steady w pr s Hf).
      do 2 eexists. split; [reflexivity | split; reflexivity].
  - change {| window := None |} with server.
    rewrite render_server.
    do 2 eexists. split; [reflexivity | split; reflexivity].
Qed.

Lemma renderPass_total (g : GlobalThis) (pr : Props) (s : State) :
  exists evs dom',
    renderPass g pr s =
    MkRun (Returned (container (instanceId s)
                       (if shown g pr then children pr else RBool false)))
      {| isFirst_current := Some false;
         instanceId := instanceId s;
         document := dom' |}
      (evs ++ [EvCommit (container (instanceId s)
                           (if shown g pr then children pr else RBool false))])
    /\ clears evs = (if clearing g pr s then 1 else 0)
    /\ List.filter is_commit evs = [].
Proof.
  destruct (render_total g pr s) as (evs & dom' & H & Hc & Hm).
  exists evs, dom'. split; [| split; assumption].
  apply renderPass_run. exact H.
Qed.

Lemma clears_app (xs ys : list Event) :
  clears (xs ++ ys) = clears xs + clears ys.
Proof. unfold clears. rewrite List.filter_app, List.length_app. reflexivity. Qed.

Lemma before_commit_app (xs : list Event) (out : ReactNode) :
  List.filter is_commit xs = [] ->
  before_commit (xs ++ [EvCommit out]) = xs /\
  after_commit (xs ++ [EvCommit out]) = [].
Proof.
  induction xs as [|x xs IH]; simpl; intros H.
  - split; reflexivity.
  - destruct (is_commit x); [discriminate |].
    destruct (IH H) as [-> ->]. split; reflexivity.
Qed.

(** After at least one render the flag is flipped and the identifier is
    the one given at creation. *)
Lemma state_after_steady (r : Render) (rs : list Render) (s : State) :
  is_first (state_after (r :: rs) s) = false /\
  instanceId (state_after (r :: rs) s) = instanceId s.
Proof.
  revert r s. induction rs as [|r' rs IH]; intros r s.
  - simpl. destruct (renderPass_total (env r) (props r) s)
      as (evs & dom' & -> & _). split; reflexivity.
  - change (state_after (r :: r' :: rs) s)
      with (state_after (r' :: rs) (final (renderPass (env r) (props r) s))).
    destruct (IH r' (final (renderPass (env r) (props r) s))) as [H1 H2].
    split; [exact H1 |]. rewrite H2.
    destruct (renderPass_total (env r) (props r) s)
      as (evs & dom' & -> & _). reflexivity.
Qed.

(** From a state whose flag is flipped no render clears anything. *)
Lemma lifetime_steady_clears (rs : list Render) (s : State) :
  is_first s = false ->
  map (fun run => clears (events run)) (lifetime rs s) =
  List.repeat 0 (length rs).
Proof.
  revert s. induction rs as [|r rs IH]; intros s Hs; [reflexivity |].
  simpl. destruct (renderPass_total (env r) (props r) s)
    as (evs & dom' & E & Hc & _).
  rewrite E. simpl. f_equal.
  - rewrite clears_app, Hc. unfold clearing.
    destruct (window (env r)); rewrite ?Hs; reflexivity.
  - apply IH. reflexivity.
Qed.

Lemma lifetime_flag (rs : list Render) (s : State) :
  Forall (fun run => isFirst_current (final run) = Some false) (lifetime rs s).
Proof.
  revert s. induction rs as [|r rs IH]; intros s; simpl; constructor.
  - destruct (renderPass_total (env r) (props r) s)
      as (evs & dom' & -> & _). reflexivity.
  - apply IH.
Qed.

Lemma list_sum_zeros (n : nat) : list_sum (List.repeat 0 n) = 0.
Proof. induction n as [|n IH]; simpl; [reflexivity | exact IH]. Qed.

Lemma useIsFirstRender_calls_steady (n : nat) (s : State) :
  is_first s = false ->
  useIsFirstRender_calls n s = (List.repeat (Returned false) n, s).
Proof.
  intros Hs. induction n as [|n IH]; [reflexivity |].
  simpl. rewrite useIsFirstRender_run, Hs. simpl.
  rewrite (flipped_steady s Hs), IH. reflexivity.
Qed.

(** ** Properties of the component *)

(** C2. For every predicate, a render in a server context (no [window])
    returns the container with the children present, on any render of any
    instance. *)
Theorem server_render_includes_children (pr : Props) (s : State) :
  outcome (SkipRenderOnClient server pr s) =
    Returned (container (instanceId s) (children pr)) /\
  content (outcome (renderPass server pr s)) = Some (children pr).
Proof.
  rewrite (renderPass_run server pr s _ _ _ (render_server pr s)).
  rewrite render_server. split; reflexivity.
Qed.

(** C6. In a server context the predicate [shouldRenderOnClient] is never
    invoked: a render there produces no event at all, and the render pass
    only its commit. *)
Theorem server_never_invokes_predicate (pr : Props) (s : State) :
  events (SkipRenderOnClient server pr s) = [] /\
  List.filter is_invoke (events (renderPass server pr s)) = [] /\
  events (renderPass server pr s) =
    [EvCommit (container (instanceId s) (children pr))].
Proof.
  rewrite (renderPass_run server pr s _ _ _ (render_server pr s)).
  rewrite render_server. repeat split; reflexivity.
Qed.

(** C1, as the spec states it, fails: with a predicate that answers false
    the first client render returns the container without the children,
    whereas the server render of the same props returns it with them. *)
Lemma first_client_render_differs_from_server :
  outcome (SkipRenderOnClient (client sample_window) (sample_props false)
             (mount ":r0:" sample_dom)) <>
  outcome (SkipRenderOnClient server (sample_props false)
             (mount ":r0:" sample_dom)).
Proof. vm_compute. discriminate. Qed.

(** C1, amended.  The first client render returns the same node as the
    server render exactly when the predicate answers true, and then leaves
    the document alone.  When the predicate answers false it returns the
    container with no content, having emptied the container in the
    document (when it is there) within the same call: the returned node
    agrees with the emptied document, not with the server's node. *)
Theorem first_client_render_vs_server
        (w : Window) (pr : Props) (id : string) (dom : gmap string string) :
  let first := SkipRenderOnClient (client w) pr (mount id dom) in
  let ssr := SkipRenderOnClient server pr (mount id dom) in
  outcome ssr = Returned (container id (children pr)) /\
  outcome first =
    Returned (container id
                (if shouldRenderOnClient pr w
                 then children pr else RBool false)) /\
  (if shouldRenderOnClient pr w
   then outcome first = outcome ssr /\ document (final first) = dom
   else document (final first) = emptied id dom /\
        document (final first) !! id = (fun _ => "") <$> (dom !! id)).
Proof.
  cbv zeta.
  rewrite render_server, (render_client_first w pr (mount id dom) eq_refl).
  destruct (shouldRenderOnClient pr w); simpl.
  - repeat split; reflexivity.
  - repeat split; try reflexivity. apply emptied_lookup.
Qed.

(** C3. Once the first client render of an instance is done: when the
    predicate answered false the container is empty, both in the returned
    node and (when the element is there) in the document; when it answered
    true the container holds the children and the document is as it
    was. *)
Theorem first_client_render_content
        (w : Window) (pr : Props) (id : string) (dom : gmap string string) :
  let run := renderPass (client w) pr (mount id dom) in
  content (outcome run) =
    Some (if shouldRenderOnClient pr w then children pr else RBool false) /\
  document (final run) =
    (if shouldRenderOnClient pr w then dom else emptied id dom) /\
  document (final run) !! id =
    (if shouldRenderOnClient pr w
     then dom !! id else (fun _ => "") <$> (dom !! id)).
Proof.
  cbv zeta.
  pose proof (render_client_first w pr (mount id dom) eq_refl) as H.
  destruct (shouldRenderOnClient pr w);
    rewrite (renderPass_run _ _ _ _ _ _ H); simpl.
  - repeat split; reflexivity.
  - repeat split; try reflexivity. apply emptied_lookup.
Qed.

(** C4. On every client render after the first, whatever the earlier
    renders were, the container holds the children when the predicate
    answers true on that render and is empty when it answers false; the
    render touches neither the document nor the instance, its only events
    being the one call of the predicate and the commit. *)
Theorem steady_state_follows_predicate
        (r0 : Render) (rs : list Render) (w : Window) (pr : Props)
        (id : string) (dom : gmap string string) :
  let s := state_after (r0 :: rs) (mount id dom) in
  let run := renderPass (client w) pr s in
  let out := container id (if shouldRenderOnClient pr w
                           then children pr else RBool false) in
  outcome run = Returned out /\
  events run = [EvInvoke (Some (shouldRenderOnClient pr w)); EvCommit out] /\
  List.filter is_dom_access (events run) = [] /\
  final run = s.
Proof.
  cbv zeta.
  destruct (state_after_steady r0 rs (mount id dom)) as [Hf Hid].
  remember (state_after (r0 :: rs) (mount id dom)) as s eqn:Es.
  change (instanceId s = id) in Hid.
  pose proof (render_client_steady w pr s Hf) as H.
  rewrite (renderPass_run _ _ _ _ _ _ H), Hid, (flipped_steady s Hf).
  repeat split; reflexivity.
Qed.

(** C5. Over any sequence of renders of an instance, the clearing of the
    container happens at most once: it can only happen in the first render,
    and does so exactly when that render runs on the client, the predicate
    answers false and the container is found; no server render and no later
    render clears anything. *)
Theorem clear_fires_at_most_once
        (r : Render) (rs : list Render) (id : string)
        (dom : gmap string string) :
  let counts :=
    map (fun run => clears (events run)) (lifetime (r :: rs) (mount id dom)) in
  counts =
    (match window (env r) with
     | Some w =>
         if shouldRenderOnClient (props r) w then 0
         else match dom !! id with Some _ => 1 | None => 0 end
     | None => 0
     end) :: List.repeat 0 (length rs) /\
  list_sum counts <= 1.
Proof.
  cbv zeta.
  assert (E : map (fun run => clears (events run))
                (lifetime (r :: rs) (mount id dom)) =
              (match window (env r) with
               | Some w =>
                   if shouldRenderOnClient (props r) w then 0
                   else match dom !! id with Some _ => 1 | None => 0 end
               | None => 0
               end) :: List.repeat 0 (length rs)).
  { simpl.
    destruct (renderPass_total (env r) (props r) (mount id dom))
      as (evs & dom' & E & Hc & _).
    rewrite E. simpl. f_equal.
    - rewrite clears_app, Hc. unfold clearing. simpl.
      destruct (window (env r)) as [w|]; [| reflexivity].
      destruct (shouldRenderOnClient (props r) w); [reflexivity |].
      destruct (dom !! id); reflexivity.
    - apply lifetime_steady_clears. reflexivity. }
  split; [exact E |].
  rewrite E. simpl.
  rewrite list_sum_zeros.
  destruct (window (env r)) as [w|]; [| lia].
  destruct (shouldRenderOnClient (props r) w); [lia |].
  destruct (dom !! id); lia.
Qed.

(** C7. When the container addressed by the identifier of the instance is
    not in the document, the clearing step returns normally and leaves the
    state as it was, and so does a repetition of it; the first client
    render with a predicate answering false then returns its node without
    having touched the document.  Repeating the step on any state, where
    the container is by then empty, again returns normally and changes
    nothing. *)
Theorem clear_missing_container_noop
        (w : Window) (pr : Props) (s : State)
        (Hmissing : document s !! instanceId s = None) :
  let id := instanceId s in
  let once := clearContainer (client w) id s in
  let twice := clearContainer (client w) id (final once) in
  let run := SkipRenderOnClient (client w) pr s in
  once = MkRun (Returned tt) s [EvGetElementById id] /\
  twice = MkRun (Returned tt) s [EvGetElementById id] /\
  (exists out, outcome run = Returned out) /\
  document (final run) = document s /\
  clears (events run) = 0 /\
  (forall (id' : string) (s' : State),
      let r1 := clearContainer (client w) id' s' in
      let r2 := clearContainer (client w) id' (final r1) in
      outcome r1 = Returned tt /\ outcome r2 = Returned tt /\
      final r2 = final r1).
Proof.
  cbv zeta.
  assert (E : clearContainer (client w) (instanceId s) s =
              MkRun (Returned tt) s [EvGetElementById (instanceId s)]).
  { rewrite clearContainer_run. unfold emptied. rewrite Hmissing.
    destruct s; reflexivity. }
  split; [exact E |].
  split; [rewrite E; exact E |].
  assert (R : (exists out,
                  outcome (SkipRenderOnClient (client w) pr s) = Returned out)
              /\ document (final (SkipRenderOnClient (client w) pr s)) =
                 document s
              /\ clears (events (SkipRenderOnClient (client w) pr s)) = 0).
  { destruct (is_first s) eqn:Hf.
    - rewrite (render_client_first w pr s Hf).
      destruct (shouldRenderOnClient pr w); simpl.
      + split; [eexists; reflexivity | split; reflexivity].
      + unfold emptied. rewrite Hmissing.
        split; [eexists; reflexivity | split; reflexivity].
    - rewrite (render_client_steady w pr s Hf). simpl.
      split; [eexists; reflexivity | split; reflexivity]. }
  destruct R as (R1 & R2 & R3).
  split; [exact R1 |]. split; [exact R2 |]. split; [exact R3 |].
  intros id' s'. rewrite !clearContainer_run.
  cbn [outcome final isFirst_current instanceId document].
  rewrite emptied_idemp. repeat split; reflexivity.
Qed.

Lemma clear_missing_container_noop_witness :
  document (mount ":r0:" empty_dom) !! instanceId (mount ":r0:" empty_dom) = None /\
  clearContainer (client sample_window) ":r0:" (mount ":r0:" empty_dom) =
    MkRun (Returned tt) (mount ":r0:" empty_dom) [EvGetElementById ":r0:"].
Proof.
  split; [reflexivity |].
  exact (proj1 (clear_missing_container_noop sample_window
                  (sample_props false) (mount ":r0:" empty_dom) eq_refl)).
Defined.

(** C8. The flag of an instance: there is no cell before the first render,
    [useRef(true)] creates it holding "first"; over any number of calls of
    the hook the answer is "first" on the first call and on no other, the
    cell holding "not first" from then on; and after every render of the
    instance's life the cell holds "not first". *)
Theorem render_phase_flag_flips_once
        (id : string) (dom : gmap string string) (n : nat)
        (r : Render) (rs : list Render) :
  isFirst_current (mount id dom) = None /\
  isFirst_current (final (useRef true (mount id dom))) = Some true /\
  useIsFirstRender_calls (S n) (mount id dom) =
    (Returned true :: List.repeat (Returned false) n,
     flipped (mount id dom)) /\
  isFirst_current (final (useIsFirstRender (mount id dom))) = Some false /\
  Forall (fun run => isFirst_current (final run) = Some false)
         (lifetime (r :: rs) (mount id dom)).
Proof.
  split; [reflexivity |]. split; [reflexivity |].
  split; [| split; [reflexivity | apply lifetime_flag]].
  cbn [useIsFirstRender_calls].
  rewrite useIsFirstRender_run.
  cbn [outcome final is_first mount isFirst_current].
  rewrite useIsFirstRender_calls_steady by reflexivity.
  reflexivity.
Qed.

(** C9, as the spec states it, fails: in the first client render pass with
    a predicate answering false, the one clearing of the container comes
    before the commit of that render. *)
Lemma clear_runs_before_commit_example :
  let evs := events (renderPass (client sample_window) (sample_props false)
                       (mount ":r0:" sample_dom)) in
  clears evs = 1 /\ ~ clears_only_after_commit evs.
Proof.
  cbv zeta. split; [vm_compute; reflexivity |].
  unfold clears_only_after_commit. vm_compute. discriminate.
Qed.

(** C9, amended.  In every render pass the clearing, when it happens,
    happens inside the call of the component, before its node is returned
    and committed: all the clears of the pass come before its single
    commit and none after it. *)
Theorem clear_precedes_commit (g : GlobalThis) (pr : Props) (s : State) :
  let evs := events (renderPass g pr s) in
  length (List.filter is_commit evs) = 1 /\
  clears (before_commit evs) = clears evs /\
  clears (after_commit evs) = 0 /\
  clears evs = (if clearing g pr s then 1 else 0).
Proof.
  cbv zeta.
  destruct (renderPass_total g pr s) as (evs & dom' & -> & Hc & Hm).
  cbn [events].
  destruct (before_commit_app evs
              (container (instanceId s)
                 (if shown g pr then children pr else RBool false)) Hm)
    as [-> ->].
  rewrite List.filter_app, Hm, clears_app, Hc.
  change (clears [EvCommit _]) with 0.
  destruct (clearing g pr s); repeat split; reflexivity.
Qed.

(** ** The two flips of the predicate, run *)

Example flip_false_to_true :
  map (fun run => content (outcome run))
      (lifetime [ {| env := client sample_window; props := sample_props false |};
                  {| env := client sample_window; props := sample_props true |} ]
         (mount ":r0:" sample_dom)) =
  [Some (RBool false); Some (RText "mobile")].
Proof. vm_compute. reflexivity. Qed.

Example flip_true_to_false :
  map (fun run => (content (outcome run), clears (events run)))
      (lifetime [ {| env := client sample_window; props := sample_props true |};
                  {| env := client sample_window; props := sample_props false |} ]
         (mount ":r0:" sample_dom)) =
  [(Some (RText "mobile"), 0); (Some (RBool false), 0)].
Proof. vm_compute. reflexivity. Qed.

(** ** Further properties of the hook and of the component *)











(** X3. How often a render calls the predicate: never without [window],
    twice on the first render of an instance on the client, once on every
    later client render; every call answers the predicate's value at the
    current [window]. *)
Theorem predicate_invocations (g : GlobalThis) (pr : Props) (s : State) :
  List.filter is_invoke (events (SkipRenderOnClient g pr s)) =
  match window g with
  | Some w =>
      List.repeat (EvInvoke (Some (shouldRenderOnClient pr w)))
                  (if is_first s then 2 else 1)
  | None => []
  end.
Proof.
  destruct g as [[w|]]; cbn [window].
  - change {| window := Some w |} with (client w).
    destruct (is_first s) eqn:Hf.
    + rewrite (render_client_first w pr s Hf).
      destruct (shouldRenderOnClient pr w); [reflexivity |].
      cbn [events]. destruct (document s !! instanceId s); reflexivity.
    + rewrite (render_client_steady w pr s Hf). reflexivity.
  - change {| window := None |} with server.
    rewrite render_server. reflexivity.
Qed.

(** X7. What a render does to the DOM: nothing, unless it is the first
    render of the instance, runs on the client and the predicate answers
    false; then it looks up the instance's own identifier once and, when
    the element is found, writes the empty string to that element and
    nothing else. *)
Theorem dom_accesses (g : GlobalThis) (pr : Props) (s : State) :
  List.filter is_dom_access (events (SkipRenderOnClient g pr s)) =
  match window g with
  | Some w =>
      if is_first s && negb (shouldRenderOnClient pr w)
      then EvGetElementById (instanceId s) ::
           match document s !! instanceId s with
           | Some _ => [EvSetInnerHTML (instanceId s) ""]
           | None => []
           end
      else []
  | None => []
  end.
Proof.
  destruct g as [[w|]]; cbn [window].
  - change {| window := Some w |} with (client w).
    destruct (is_first s) eqn:Hf.
    + rewrite (render_client_first w pr s Hf).
      destruct (shouldRenderOnClient pr w); [reflexivity |].
      cbn [events]. destruct (document s !! instanceId s); reflexivity.
    + rewrite (render_client_steady w pr s Hf). reflexivity.
  - change {| window := None |} with server.
    rewrite render_server. reflexivity.
Qed.

(** X4. The component never looks into its children: with the same
    predicate, two renders that differ only in the children leave the same
    state and produce the same events. *)
Theorem children_do_not_affect_effects
        (g : GlobalThis) (p : Window -> bool) (c1 c2 : ReactNode)
        (s : State) :
  let run1 := SkipRenderOnClient g
                {| children := c1; shouldRenderOnClient := p |} s in
  let run2 := SkipRenderOnClient g
                {| children := c2; shouldRenderOnClient := p |} s in
  final run1 = final run2 /\ events run1 = events run2.
Proof.
  cbv zeta. destruct g as [[w|]].
  - change {| window := Some w |} with (client w).
    destruct (is_first s) eqn:Hf.
    + rewrite !(render_client_first w _ s Hf).
      cbn [shouldRenderOnClient children].
      destruct (p w); split; reflexivity.
    + rewrite !(render_client_steady w _ s Hf). split; reflexivity.
  - change {| window := None |} with server.
    rewrite !render_server. split; reflexivity.
Qed.


(** X6. From any state of the cell, an absent one and one holding "first"
    alike, the hook answers "first" at most on the first call and "not
    first" on every later one, never throws, and leaves the identifier and
    the document of the instance as they were. *)
Theorem useIsFirstRender_from_any_state (s : State) (n : nat) :
  useIsFirstRender_calls (S n) s =
    (Returned (is_first s) :: List.repeat (Returned false) n, flipped s) /\
  instanceId (snd (useIsFirstRender_calls (S n) s)) = instanceId s /\
  document (snd (useIsFirstRender_calls (S n) s)) = document s.
Proof.
  assert (E : useIsFirstRender_calls (S n) s =
              (Returned (is_first s) :: List.repeat (Returned false) n,
               flipped s)).
  { cbn [useIsFirstRender_calls]. rewrite useIsFirstRender_run.
    cbn [outcome final].
    rewrite (useIsFirstRender_calls_steady n (flipped s) eq_refl).
    reflexivity. }
  rewrite E. repeat split; reflexivity.
Qed.
